(** * Interface Reactions notebook: embedding and verification

    The repository is one Jupyter notebook,
    [notebooks/2018-01-29-Interface Reactions.ipynb].  Its six code cells
    are glue over pymatgen, the Materials Project REST client, pandas and
    matplotlib.  The cells are embedded as computations in a state and
    exception monad over the interpreter's namespace; everything the cells
    call but do not define is a field of the record [External].  The
    [import] lines and the [%matplotlib inline] magic bind no name that
    the cells assign or test, and are left out. *)

From stdpp Require Import base option list gmap strings.
From Stdlib Require Import ZArith Lia Ascii.

Open Scope Z_scope.

(** ** The external world

    A call into a library either returns or raises; [Raised] carries the
    message of the exception. *)

Inductive reply (A : Type) : Type :=
| Returned (a : A)
| Raised (msg : string).
Arguments Returned {A} a.
Arguments Raised {A} msg.

(** Everything imported by the first cell, together with the float
    operations of the interpreter that the cells use ([+] on an int and a
    float, the truth value of a float, and the builtin [round]), and what
    a call of the library function of a given name leaves on disk
    (caches, configuration) besides its answer. *)
Record External : Type := {
  float : Type;
  float_of_int : Z → float;
  float_add : float → float → float;
  float_is_zero : float → bool;
  round : float → Z → float;
  on_disk : string → gmap string string → gmap string string;

  MPRester : Type;
  Composition : Type;
  Element : Type;
  Entry : Type;
  PhaseDiagram : Type;
  GrandPotentialPhaseDiagram : Type;
  Reaction : Type;
  InterfacialReactivity : Type;
  Figure : Type;

  new_MPRester : reply MPRester;
  new_Composition : string → reply Composition;
  Composition_elements : Composition → list Element;
  new_Element : string → reply Element;
  Element_symbol : Element → string;
  get_entries_in_chemsys : MPRester → list string → reply (list Entry);
  new_PhaseDiagram : list Entry → reply PhaseDiagram;
  get_transition_chempots : PhaseDiagram → Element → reply (list float);
  new_GrandPotentialPhaseDiagram :
    list Entry → gmap string float → reply GrandPotentialPhaseDiagram;
  new_InterfacialReactivity :
    Composition → Composition →
    PhaseDiagram + GrandPotentialPhaseDiagram →
    ∀ (norm include_no_mixing_energy : bool) (pd_non_grand : option PhaseDiagram),
    reply InterfacialReactivity;
  plot : InterfacialReactivity → reply Figure;
  get_kinks : InterfacialReactivity → reply (list (Z * float * float * Reaction));
}.

(** Exceptions that reach the top level of the notebook: those the
    interpreter raises itself, and those coming out of a library. *)
Inductive exn : Type :=
| NameError (name : string)
| TypeError
| IndexError
| KeyError (key : string)
| ExternalError (msg : string).

Inductive result (A : Type) : Type :=
| Ok (a : A)
| Raise (e : exn).
Arguments Ok {A} a.
Arguments Raise {A} e.

(** ** A world to run the notebook in

    A small instance of [External], used to execute the cells: formulas
    are parsed into element counts, the database holds a handful of
    Li-Co-O-P-S phases, floats are decimal fixed-point numbers with six
    places, and the kinks are those shown in the notebook's saved
    output. *)

Module Fixture.

Definition is_upper (c : ascii) : bool :=
  let n := N_of_ascii c in ((65 <=? n) && (n <=? 90))%N.
Definition is_lower (c : ascii) : bool :=
  let n := N_of_ascii c in ((97 <=? n) && (n <=? 122))%N.
Definition is_digit (c : ascii) : bool :=
  let n := N_of_ascii c in ((48 <=? n) && (n <=? 57))%N.
Definition digit (c : ascii) : Z := Z.of_N (N_of_ascii c) - 48.

Definition flush (sym : string) (num : option Z) (acc : list (string * Z))
  : list (string * Z) :=
  if String.eqb sym EmptyString then acc else acc ++ [(sym, default 1 num)].

Fixpoint parse (f sym : string) (num : option Z) (acc : list (string * Z))
  : reply (list (string * Z)) :=
  match f with
  | EmptyString => Returned (flush sym num acc)
  | String c f' =>
      if is_upper c then
        parse f' (String c EmptyString) None (flush sym num acc)
      else if is_lower c then
        match num with
        | None => parse f' (sym +:+ String c EmptyString) None acc
        | Some _ => Raised "invalid formula"
        end
      else if is_digit c then
        parse f' sym (Some (10 * default 0 num + digit c)) acc
      else Raised "invalid formula"
  end.

Definition composition (f : string) : reply (list (string * Z)) :=
  parse f EmptyString None [].

(** Formula, elements, energy per atom in micro-eV. *)
Definition entry : Type := string * list string * Z.

Definition database : list entry :=
  [ ("Li", ["Li"], -1908000); ("Co", ["Co"], -7092000);
    ("O2", ["O"], -4948000); ("P", ["P"], -5409000); ("S", ["S"], -4136000);
    ("LiCoO2", ["Li"; "Co"; "O"], -5659000);
    ("Li3PS4", ["Li"; "P"; "S"], -4215000);
    ("Li2S", ["Li"; "S"], -3981000); ("Li2O", ["Li"; "O"], -4769000);
    ("CoS2", ["Co"; "S"], -5445000);
    ("Li3PO4", ["Li"; "P"; "O"], -6195000);
    ("Li2SO4", ["Li"; "S"; "O"], -5994000);
    ("Li5CoO4", ["Li"; "Co"; "O"], -4980000) ].

Definition entries_in_chemsys (els : list string) : list entry :=
  List.filter
    (λ e : entry, forallb (λ x, bool_decide (x ∈ els)) e.1.2) database.

Definition phase_diagram (es : list entry) : reply (list entry) :=
  match es with
  | [] => Raised "no entries in the chemical system"
  | _ => Returned es
  end.

Definition transition_chempots (pd : list entry) (el : string)
  : reply (list Z) :=
  if existsb (λ e : entry, bool_decide (el ∈ e.1.2)) pd
  then Returned [-7092000; -7683000; -8207000]
  else Raised "element not in the phase diagram".

(** Round half to even at [n] decimal places of a decimal fixed-point
    number.  The interpreter rounds binary doubles, where a tie of the
    decimal notation need not be a tie. *)
Definition round_places (x n : Z) : Z :=
  if 6 <=? n then x
  else
    let q := 10 ^ (6 - n) in
    let d := x `div` q in
    let r := x `mod` q in
    if 2 * r <? q then d * q
    else if q <? 2 * r then (d + 1) * q
    else if Z.even d then d * q else (d + 1) * q.

Definition reactivity : Type :=
  list (string * Z) * list (string * Z) *
  (list entry + list entry * gmap string Z) * bool * bool *
  option (list entry).

Definition kinks : list (Z * Z * Z * string) :=
  [ (1, 0, 0, "Li3PS4 -> Li3PS4");
    (2, 500000, -462418,
     "Li3PS4 + 2 LiCoO2 -> 0.5 Co + Li2S + 1.5 CoS2 + Li3PO4");
    (3, 800000, -578093,
     "0.3333 Li3PS4 + 2.667 LiCoO2 -> 2.667 Co + Li2SO4 + 0.3333 Li2S + 0.3333 Li3PO4");
    (4, 842105, -567612,
     "0.75 Li3PS4 + 8 LiCoO2 -> 8 Co + Li2O + 3 Li2SO4 + 0.75 Li3PO4");
    (5, 850000, -542557,
     "1.5 Li3PS4 + 17 LiCoO2 -> 16 Co + Li5CoO4 + 6 Li2SO4 + 1.5 Li3PO4");
    (6, 1000000, 0, "LiCoO2 -> LiCoO2") ].

(** What the libraries of this world write on their own: the plotting
    library keeps a font cache. *)
Definition font_cache (f : string) (d : gmap string string)
  : gmap string string :=
  if String.eqb f "plot"
  then <["matplotlib/fontlist.json" := "DejaVu Sans"]> d
  else d.

(** The world, given the answer of the REST service. *)
Definition make (query : list string → reply (list entry)) : External :=
  {| float := Z;
     float_of_int := λ z, z * 1000000;
     float_add := Z.add;
     float_is_zero := Z.eqb 0;
     round := round_places;
     on_disk := font_cache;
     MPRester := unit;
     Composition := list (string * Z);
     Element := string;
     Entry := entry;
     PhaseDiagram := list entry;
     GrandPotentialPhaseDiagram := list entry * gmap string Z;
     Reaction := string;
     InterfacialReactivity := reactivity;
     Figure := unit;
     new_MPRester := Returned tt;
     new_Composition := composition;
     Composition_elements := λ c, c.*1;
     new_Element := Returned;
     Element_symbol := id;
     get_entries_in_chemsys := λ _, query;
     new_PhaseDiagram := phase_diagram;
     get_transition_chempots := transition_chempots;
     new_GrandPotentialPhaseDiagram := λ es mu, Returned (es, mu);
     new_InterfacialReactivity :=
       λ c1 c2 pd norm mix non_grand,
         Returned (c1, c2, pd, norm, mix, non_grand);
     plot := λ _, Returned tt;
     get_kinks := λ _, Returned kinks |}.

Definition world : External :=
  make (λ els, Returned (entries_in_chemsys els)).

(** The same world with the REST service refusing the API key. *)
Definition offline : External :=
  make (λ _, Raised "REST query returned with error status code 403").

(** [w] with other answers from [get_transition_chempots] and
    [get_kinks]. *)
Definition variant (w : External)
    (chempots : PhaseDiagram w → Element w → reply (list (float w)))
    (ks : InterfacialReactivity w →
          reply (list (Z * float w * float w * Reaction w))) : External :=
  {| float := float w;
     float_of_int := float_of_int w;
     float_add := float_add w;
     float_is_zero := float_is_zero w;
     round := round w;
     on_disk := on_disk w;
     MPRester := MPRester w;
     Composition := Composition w;
     Element := Element w;
     Entry := Entry w;
     PhaseDiagram := PhaseDiagram w;
     GrandPotentialPhaseDiagram := GrandPotentialPhaseDiagram w;
     Reaction := Reaction w;
     InterfacialReactivity := InterfacialReactivity w;
     Figure := Figure w;
     new_MPRester := new_MPRester w;
     new_Composition := new_Composition w;
     Composition_elements := Composition_elements w;
     new_Element := new_Element w;
     Element_symbol := Element_symbol w;
     get_entries_in_chemsys := get_entries_in_chemsys w;
     new_PhaseDiagram := new_PhaseDiagram w;
     get_transition_chempots := chempots;
     new_GrandPotentialPhaseDiagram := new_GrandPotentialPhaseDiagram w;
     new_InterfacialReactivity := new_InterfacialReactivity w;
     plot := plot w;
     get_kinks := ks |}.

(** A phase diagram without transition chemical potentials. *)
Definition flat : External :=
  variant world (λ _ _, Returned []) (get_kinks world).

(** Two reactants that do not react: the kinks are the two end points. *)
Definition inert : External :=
  variant world (get_transition_chempots world)
    (λ _, Returned [ (1, 0, 0, "Li3PS4 -> Li3PS4");
                     (2, 1000000, 0, "LiCoO2 -> LiCoO2") ]).

(** The kinks cannot be read off the analysis. *)
Definition mute : External :=
  variant world (get_transition_chempots world)
    (λ _, Raised "kinks are not available").

(** A world whose compositions do not list cobalt, so that the open
    element reaches the REST query through [open_el] only. *)
Definition masked : External :=
  {| float := float world;
     float_of_int := float_of_int world;
     float_add := float_add world;
     float_is_zero := float_is_zero world;
     round := round world;
     on_disk := on_disk world;
     MPRester := MPRester world;
     Composition := Composition world;
     Element := Element world;
     Entry := Entry world;
     PhaseDiagram := PhaseDiagram world;
     GrandPotentialPhaseDiagram := GrandPotentialPhaseDiagram world;
     Reaction := Reaction world;
     InterfacialReactivity := InterfacialReactivity world;
     Figure := Figure world;
     new_MPRester := new_MPRester world;
     new_Composition := new_Composition world;
     Composition_elements :=
       λ c, List.filter (λ x, negb (String.eqb x "Co")) c.*1;
     new_Element := new_Element world;
     Element_symbol := Element_symbol world;
     get_entries_in_chemsys := get_entries_in_chemsys world;
     new_PhaseDiagram := new_PhaseDiagram world;
     get_transition_chempots := get_transition_chempots world;
     new_GrandPotentialPhaseDiagram := new_GrandPotentialPhaseDiagram world;
     new_InterfacialReactivity := new_InterfacialReactivity world;
     plot := plot world;
     get_kinks := get_kinks world |}.

End Fixture.

Section Notebook.

Context (ext : External).

(** ** Values, exceptions, interpreter state *)

#[warnings="-register-all"]
Inductive value : Type :=
| VBool (b : bool)
| VInt (z : Z)
| VFloat (x : float ext)
| VStr (s : string)
| VStrs (l : list string)
| VList (l : list value)
| VODict (items : list (string * value))
| VChempots (d : gmap string (float ext))
| VMPRester (m : MPRester ext)
| VComposition (c : Composition ext)
| VEntries (l : list (Entry ext))
| VPhaseDiagram (p : PhaseDiagram ext)
| VGrandPotentialPhaseDiagram (g : GrandPotentialPhaseDiagram ext)
| VInterfacialReactivity (i : InterfacialReactivity ext)
| VFigure (f : Figure ext)
| VReaction (r : Reaction ext)
| VDataFrame (rows : list value)
| VType (class : string).

(** Calls that leave the notebook, with their arguments. *)
Inductive call : Type :=
| CMPRester
| CComposition (formula : string)
| CElement (symbol : string)
| CGetEntries (mpr : MPRester ext) (elements : list string)
| CPhaseDiagram (entries : list (Entry ext))
| CTransitionChempots (pd : PhaseDiagram ext) (el : Element ext)
| CGrandPotentialPhaseDiagram (entries : list (Entry ext))
    (chempots : gmap string (float ext))
| CInterfacialReactivity (c1 c2 : Composition ext)
    (pd : PhaseDiagram ext + GrandPotentialPhaseDiagram ext)
    (norm include_no_mixing_energy : bool)
    (pd_non_grand : option (PhaseDiagram ext))
| CPlot (i : InterfacialReactivity ext)
| CGetKinks (i : InterfacialReactivity ext).

(** What a cell leaves below itself in the notebook: a figure, the value
    of the cell's last expression, or the text that [print] writes for a
    value. *)
Inductive output : Type :=
| DisplayData (f : Figure ext)
| ExecuteResult (v : value)
| Stream (printed : value).

(** What happens to a name: it is bound to a value, or unbound. *)
Inductive event : Type :=
| Bound (x : string) (v : value)
| Unbound (x : string).

(** The kernel's namespace, the calls made and the outputs shown so far,
    the files on disk, and the record of every binding made so far, in
    the order in which they were made. *)
Record state : Type := State {
  vars : gmap string value;
  calls : list call;
  outputs : list output;
  files : gmap string string;
  events : list event;
}.

Definition initial (fs : gmap string string) : state :=
  State ∅ [] [] fs [].

(** The Python name of what the call [c] invokes. *)
Definition callee (c : call) : string :=
  match c with
  | CMPRester => "MPRester"
  | CComposition _ => "Composition"
  | CElement _ => "Element"
  | CGetEntries _ _ => "get_entries_in_chemsys"
  | CPhaseDiagram _ => "PhaseDiagram"
  | CTransitionChempots _ _ => "get_transition_chempots"
  | CGrandPotentialPhaseDiagram _ _ => "GrandPotentialPhaseDiagram"
  | CInterfacialReactivity _ _ _ _ _ _ => "InterfacialReactivity"
  | CPlot _ => "plot"
  | CGetKinks _ => "get_kinks"
  end.

(** ** The monad of statements

    The statements a cell can make: bind and read names, call a library,
    show an output, and also unbind a name or write a file, which no cell
    of this notebook does. *)

Definition M (A : Type) : Type := state → result A * state.

Definition ret {A} (a : A) : M A := λ s, (Ok a, s).

Definition raise {A} (e : exn) : M A := λ s, (Raise e, s).

Definition bind {A B} (m : M A) (k : A → M B) : M B :=
  λ s, match m s with
       | (Ok a, s') => k a s'
       | (Raise e, s') => (Raise e, s')
       end.

Notation "x <- m ;; k" := (bind m (λ x, k))
  (at level 100, m at next level, right associativity).
Notation "m ;;; k" := (bind m (λ _, k))
  (at level 100, right associativity).

(** [x = v].  An in-place change of the object that [x] names, as
    [elements.append(...)], is an assignment too: from then on [x] names
    the changed value. *)
Definition assign (x : string) (v : value) : M unit :=
  λ s, (Ok tt, State (<[x := v]> (vars s)) (calls s) (outputs s) (files s)
                 (events s ++ [Bound x v])).

(** [del x] *)
Definition unbind (x : string) : M unit :=
  λ s, match vars s !! x with
       | Some _ =>
           (Ok tt, State (delete x (vars s)) (calls s) (outputs s) (files s)
                     (events s ++ [Unbound x]))
       | None => (Raise (NameError x), s)
       end.

(** [open(path, "w").write(text)] *)
Definition write_file (path text : string) : M unit :=
  λ s, (Ok tt, State (vars s) (calls s) (outputs s)
                 (<[path := text]> (files s)) (events s)).

(** Reading the name [x]. *)
Definition name (x : string) : M value :=
  λ s, match vars s !! x with
       | Some v => (Ok v, s)
       | None => (Raise (NameError x), s)
       end.

(** A call into a library is recorded and leaves on disk what the
    library writes on its own; then it returns or raises. *)
Definition invoke {A} (c : call) (r : reply A) : M A :=
  λ s, let s' := State (vars s) (calls s ++ [c]) (outputs s)
                   (on_disk ext (callee c) (files s)) (events s) in
       match r with
       | Returned a => (Ok a, s')
       | Raised msg => (Raise (ExternalError msg), s')
       end.

Definition emit (o : output) : M unit :=
  λ s, (Ok tt, State (vars s) (calls s) (outputs s ++ [o]) (files s)
                 (events s)).

(** Statements in sequence. *)
Fixpoint exec (p : list (M unit)) : M unit :=
  match p with
  | [] => ret tt
  | m :: p' => m ;;; exec p'
  end.

(** ** Dynamic typing *)

Definition truth (v : value) : bool :=
  match v with
  | VBool b => b
  | VInt z => negb (z =? 0)
  | VFloat x => negb (float_is_zero ext x)
  | VStr s => negb (String.eqb s EmptyString)
  | VStrs l => match l with [] => false | _ => true end
  | VList l => match l with [] => false | _ => true end
  | VODict l => match l with [] => false | _ => true end
  | VChempots d => negb (bool_decide (d = ∅))
  | VEntries l => match l with [] => false | _ => true end
  | _ => true
  end.

Definition as_str (v : value) : M string :=
  match v with VStr s => ret s | _ => raise TypeError end.
Definition as_strs (v : value) : M (list string) :=
  match v with VStrs l => ret l | _ => raise TypeError end.
Definition as_float (v : value) : M (float ext) :=
  match v with VFloat x => ret x | _ => raise TypeError end.
Definition as_chempots (v : value) : M (gmap string (float ext)) :=
  match v with VChempots d => ret d | _ => raise TypeError end.
Definition as_MPRester (v : value) : M (MPRester ext) :=
  match v with VMPRester m => ret m | _ => raise TypeError end.
Definition as_Composition (v : value) : M (Composition ext) :=
  match v with VComposition c => ret c | _ => raise TypeError end.
Definition as_entries (v : value) : M (list (Entry ext)) :=
  match v with VEntries l => ret l | _ => raise TypeError end.
Definition as_PhaseDiagram (v : value) : M (PhaseDiagram ext) :=
  match v with VPhaseDiagram p => ret p | _ => raise TypeError end.
Definition as_GrandPotentialPhaseDiagram (v : value)
  : M (GrandPotentialPhaseDiagram ext) :=
  match v with VGrandPotentialPhaseDiagram g => ret g | _ => raise TypeError end.
Definition as_InterfacialReactivity (v : value) : M (InterfacialReactivity ext) :=
  match v with VInterfacialReactivity i => ret i | _ => raise TypeError end.
Definition as_list (v : value) : M (list value) :=
  match v with VList l => ret l | _ => raise TypeError end.
Definition as_odict (v : value) : M (list (string * value)) :=
  match v with VODict d => ret d | _ => raise TypeError end.

(** [type(v)] *)
Definition type_of (v : value) : value :=
  VType match v with
        | VBool _ => "bool"
        | VInt _ => "int"
        | VFloat _ => "float"
        | VStr _ => "str"
        | VStrs _ => "list"
        | VList _ => "list"
        | VODict _ => "collections.OrderedDict"
        | VChempots _ => "dict"
        | VMPRester _ => "pymatgen.ext.matproj.MPRester"
        | VComposition _ => "pymatgen.core.composition.Composition"
        | VEntries _ => "list"
        | VPhaseDiagram _ => "pymatgen.analysis.phase_diagram.PhaseDiagram"
        | VGrandPotentialPhaseDiagram _ =>
            "pymatgen.analysis.phase_diagram.GrandPotentialPhaseDiagram"
        | VInterfacialReactivity _ =>
            "pymatgen.analysis.interface_reactions.InterfacialReactivity"
        | VFigure _ => "module"
        | VReaction _ => "pymatgen.analysis.reaction_calculator.Reaction"
        | VDataFrame _ => "pandas.core.frame.DataFrame"
        | VType _ => "type"
        end.

(** [if c: body], with no [else]. *)
Definition when (c : M value) (body : list (M unit)) : M unit :=
  v <- c ;; if truth v then exec body else ret tt.

(** [if c: body else: other] *)
Definition if_else (c : M value) (body other : list (M unit)) : M unit :=
  v <- c ;; if truth v then exec body else exec other.

(** [a + b] on the values the notebook can hold. *)
Definition py_add (a b : value) : M value :=
  match a, b with
  | VInt x, VInt y => ret (VInt (x + y))
  | VInt x, VFloat y => ret (VFloat (float_add ext (float_of_int ext x) y))
  | VFloat x, VInt y => ret (VFloat (float_add ext x (float_of_int ext y)))
  | VFloat x, VFloat y => ret (VFloat (float_add ext x y))
  | VStr x, VStr y => ret (VStr (x +:+ y))
  | VStrs x, VStrs y => ret (VStrs (x ++ y))
  | _, _ => raise TypeError
  end.

(** [l[i]] on a sequence: negative indices count from the end. *)
Definition getitem {A} (l : list A) (i : Z) : M A :=
  let n := Z.of_nat (length l) in
  let j := if i <? 0 then i + n else i in
  if (0 <=? j) && (j <? n)
  then match l !! Z.to_nat j with
       | Some x => ret x
       | None => raise IndexError
       end
  else raise IndexError.

(** [list(set(l))]: the members of [l], each once; Python leaves the order
    unspecified, the model takes that of [elements]. *)
Definition list_set (l : list string) : list string :=
  elements (list_to_set l : gset string).

(** [d[k] = v] on an ordered dictionary: a key already present keeps its
    position, a new key goes last. *)
Fixpoint od_set (k : string) (v : value) (d : list (string * value))
  : list (string * value) :=
  match d with
  | [] => [(k, v)]
  | (k', v') :: d' =>
      if String.eqb k' k then (k', v) :: d' else (k', v') :: od_set k v d'
  end.

(** [OrderedDict(items)] *)
Definition OrderedDict (items : list (string * value)) : list (string * value) :=
  fold_left (λ d kv, od_set kv.1 kv.2 d) items [].

(** [d[k]] *)
Fixpoint od_get (d : list (string * value)) (k : string) : M value :=
  match d with
  | [] => raise (KeyError k)
  | (k', v) :: d' => if String.eqb k' k then ret v else od_get d' k
  end.

(** ** The cells *)

(** Cell 1, after the imports: [mpr = MPRester()]. *)
Definition cell1 : list (M unit) :=
  [ m <- invoke CMPRester (new_MPRester ext) ;; assign "mpr" (VMPRester m) ].

(** Cell 2.  [grand] is the setting the reader of the notebook edits; the
    notebook as published has [grand = True]. *)
Definition cell2 (grand : bool) : list (M unit) :=
  [ assign "reactant1" (VStr "LiCoO2");
    assign "reactant2" (VStr "Li3PS4");
    assign "grand" (VBool grand);
    when (name "grand")
      [ assign "open_el" (VStr "Co");
        assign "relative_mu" (VInt (-1)) ] ].

(** Cell 3. *)
Definition cell3 : list (M unit) :=
  [ (* comp1 = Composition(reactant1) *)
    (r <- name "reactant1" ;; f <- as_str r ;;
     c <- invoke (CComposition f) (new_Composition ext f) ;;
     assign "comp1" (VComposition c));
    (* comp2 = Composition(reactant2) *)
    (r <- name "reactant2" ;; f <- as_str r ;;
     c <- invoke (CComposition f) (new_Composition ext f) ;;
     assign "comp2" (VComposition c));
    (* elements = [e.symbol for e in comp1.elements + comp2.elements] *)
    (a <- name "comp1" ;; c1 <- as_Composition a ;;
     b <- name "comp2" ;; c2 <- as_Composition b ;;
     assign "elements"
       (VStrs (Element_symbol ext <$>
                 Composition_elements ext c1 ++ Composition_elements ext c2)));
    (* if grand: elements.append(open_el) *)
    when (name "grand")
      [ l <- name "elements" ;; l <- as_strs l ;;
        o <- name "open_el" ;; o <- as_str o ;;
        assign "elements" (VStrs (l ++ [o])) ];
    (* elements = list(set(elements)) *)
    (l <- name "elements" ;; l <- as_strs l ;;
     assign "elements" (VStrs (list_set l)));
    (* entries = mpr.get_entries_in_chemsys(elements) *)
    (m <- name "mpr" ;; m <- as_MPRester m ;;
     l <- name "elements" ;; l <- as_strs l ;;
     es <- invoke (CGetEntries m l) (get_entries_in_chemsys ext m l) ;;
     assign "entries" (VEntries es));
    (* pd = PhaseDiagram(entries) *)
    (es <- name "entries" ;; es <- as_entries es ;;
     p <- invoke (CPhaseDiagram es) (new_PhaseDiagram ext es) ;;
     assign "pd" (VPhaseDiagram p));
    if_else (name "grand")
      [ (* mu = pd.get_transition_chempots(Element(open_el))[0] *)
        (p <- name "pd" ;; p <- as_PhaseDiagram p ;;
         o <- name "open_el" ;; o <- as_str o ;;
         e <- invoke (CElement o) (new_Element ext o) ;;
         mus <- invoke (CTransitionChempots p e) (get_transition_chempots ext p e) ;;
         mu <- getitem mus 0 ;;
         assign "mu" (VFloat mu));
        (* chempots = {open_el: relative_mu + mu} *)
        (o <- name "open_el" ;; o <- as_str o ;;
         r <- name "relative_mu" ;; mu <- name "mu" ;;
         v <- py_add r mu ;; v <- as_float v ;;
         assign "chempots" (VChempots {[ o := v ]}));
        (* gpd = GrandPotentialPhaseDiagram(entries, chempots) *)
        (es <- name "entries" ;; es <- as_entries es ;;
         d <- name "chempots" ;; d <- as_chempots d ;;
         g <- invoke (CGrandPotentialPhaseDiagram es d)
                (new_GrandPotentialPhaseDiagram ext es d) ;;
         assign "gpd" (VGrandPotentialPhaseDiagram g));
        (* interface = InterfacialReactivity(comp1, comp2, gpd, norm=True,
             include_no_mixing_energy=True, pd_non_grand=pd) *)
        (a <- name "comp1" ;; c1 <- as_Composition a ;;
         b <- name "comp2" ;; c2 <- as_Composition b ;;
         g <- name "gpd" ;; g <- as_GrandPotentialPhaseDiagram g ;;
         p <- name "pd" ;; p <- as_PhaseDiagram p ;;
         i <- invoke (CInterfacialReactivity c1 c2 (inr g) true true (Some p))
                (new_InterfacialReactivity ext c1 c2 (inr g) true true (Some p)) ;;
         assign "interface" (VInterfacialReactivity i)) ]
      [ (* interface = InterfacialReactivity(comp1, comp2, pd, norm=True,
             include_no_mixing_energy=False, pd_non_grand=None) *)
        (a <- name "comp1" ;; c1 <- as_Composition a ;;
         b <- name "comp2" ;; c2 <- as_Composition b ;;
         p <- name "pd" ;; p <- as_PhaseDiagram p ;;
         i <- invoke (CInterfacialReactivity c1 c2 (inl p) true false None)
                (new_InterfacialReactivity ext c1 c2 (inl p) true false None) ;;
         assign "interface" (VInterfacialReactivity i)) ] ].

(** Cell 4: [plt = interface.plot()]; under [%matplotlib inline] the
    figure is shown below the cell. *)
Definition cell4 : list (M unit) :=
  [ i <- name "interface" ;; i <- as_InterfacialReactivity i ;;
    f <- invoke (CPlot i) (plot ext i) ;;
    (assign "plt" (VFigure f) ;;; emit (DisplayData f)) ].

(** One row of the table, for [_, ratio, energy, rxn] taken from a kink. *)
Definition kink_row (k : Z * float ext * float ext * Reaction ext) : value :=
  let '(_, ratio, energy, rxn) := k in
  VODict (OrderedDict
    [ ("mixing ratio", VFloat (round ext ratio 4));
      ("reaction energy (eV/atom)", VFloat (round ext energy 4));
      ("reaction", VReaction rxn) ]).

(** Cell 5.  The names bound by the comprehension are local to it. *)
Definition cell5 : list (M unit) :=
  [ (* critical_rxns = [OrderedDict([...]) for ... in interface.get_kinks()] *)
    (i <- name "interface" ;; i <- as_InterfacialReactivity i ;;
     ks <- invoke (CGetKinks i) (get_kinks ext i) ;;
     assign "critical_rxns" (VList (kink_row <$> ks)));
    (* DataFrame(critical_rxns), the value of the cell *)
    (l <- name "critical_rxns" ;; rows <- as_list l ;;
     emit (ExecuteResult (VDataFrame rows))) ].

(** Cell 6. *)
Definition cell6 : list (M unit) :=
  [ (* rxn = critical_rxns[2]["reaction"] *)
    (l <- name "critical_rxns" ;; l <- as_list l ;;
     d <- getitem l 2 ;; d <- as_odict d ;;
     v <- od_get d "reaction" ;;
     assign "rxn" v);
    (* print(rxn) *)
    (v <- name "rxn" ;; emit (Stream v));
    (* print(type(rxn)) *)
    (v <- name "rxn" ;; emit (Stream (type_of v))) ].

Definition notebook (grand : bool) : list (M unit) :=
  cell1 ++ cell2 grand ++ cell3 ++ cell4 ++ cell5 ++ cell6.

(** Running all cells from a fresh kernel, with [fs] on disk. *)
Definition run (grand : bool) (fs : gmap string string) : result unit * state :=
  exec (notebook grand) (initial fs).


(** ** Vocabulary of the properties *)

Definition is_NameError {A} (r : result A) : bool :=
  match r with Raise (NameError _) => true | _ => false end.

(** The exceptions of the dynamic checks: a value of the wrong type, or a
    key missing from a dictionary. *)
Definition is_cast_error {A} (r : result A) : bool :=
  match r with Raise TypeError | Raise (KeyError _) => true | _ => false end.

(** [[e.symbol for e in c.elements]] *)
Definition symbols (c : Composition ext) : list string :=
  Element_symbol ext <$> Composition_elements ext c.



(** The row that the tabulation is to produce for the kink [k]. *)
Definition tabulates (k : Z * float ext * float ext * Reaction ext)
  (row : value) : Prop :=
  row = VODict [ ("mixing ratio", VFloat (round ext k.1.1.2 4));
                 ("reaction energy (eV/atom)", VFloat (round ext k.1.2 4));
                 ("reaction", VReaction k.2) ].

(** The values that are, or hold, a composition, entries, a phase diagram
    or reactions; a list of rows holds the reactions of the table. *)
Definition held (v : value) : bool :=
  match v with
  | VComposition _ | VEntries _ | VPhaseDiagram _
  | VGrandPotentialPhaseDiagram _ | VReaction _ | VList _ => true
  | _ => false
  end.

Definition event_name (e : event) : string :=
  match e with Bound x _ | Unbound x => x end.

Definition apply_event (m : gmap string value) (e : event)
  : gmap string value :=
  match e with
  | Bound x v => <[x := v]> m
  | Unbound x => delete x m
  end.

(** The namespaces that the events [evs] lead through, from [m] on. *)
Fixpoint namespaces (m : gmap string value) (evs : list event)
  : list (gmap string value) :=
  match evs with
  | [] => []
  | e :: evs' => apply_event m e :: namespaces (apply_event m e) evs'
  end.

(** The namespace after each binding made since the kernel started, also
    those made inside the branches of an [if]. *)
Definition history (s : state) : list (gmap string value) :=
  namespaces ∅ (events s).

(** Once a name is bound to a held value, no later event touches the
    name. *)
Fixpoint settled (evs : list event) : bool :=
  match evs with
  | [] => true
  | e :: evs' =>
      match e with
      | Bound x v =>
          if held v
          then forallb (λ e', negb (String.eqb (event_name e') x)) evs'
          else true
      | Unbound _ => true
      end && settled evs'
  end.

(** The disk [fs] after the calls [cs], when nothing but the libraries
    writes to it. *)
Definition disk_after (fs : gmap string string) (cs : list call)
  : gmap string string :=
  foldl (λ d c, on_disk ext (callee c) d) fs cs.

(** Every output is a figure or a table. *)
Definition only_plot_and_table (s : state) : Prop :=
  ∀ o, o ∈ outputs s →
       (∃ f, o = DisplayData f) ∨ (∃ rows, o = ExecuteResult (VDataFrame rows)).

Definition reply_error {A} (r : reply A) : option string :=
  match r with Raised msg => Some msg | Returned _ => None end.

(** The message with which the library answers the call [c], if it
    raises. *)
Definition failure (c : call) : option string :=
  match c with
  | CMPRester => reply_error (new_MPRester ext)
  | CComposition f => reply_error (new_Composition ext f)
  | CElement x => reply_error (new_Element ext x)
  | CGetEntries m l => reply_error (get_entries_in_chemsys ext m l)
  | CPhaseDiagram es => reply_error (new_PhaseDiagram ext es)
  | CTransitionChempots p e => reply_error (get_transition_chempots ext p e)
  | CGrandPotentialPhaseDiagram es d =>
      reply_error (new_GrandPotentialPhaseDiagram ext es d)
  | CInterfacialReactivity c1 c2 p n m o =>
      reply_error (new_InterfacialReactivity ext c1 c2 p n m o)
  | CPlot i => reply_error (plot ext i)
  | CGetKinks i => reply_error (get_kinks ext i)
  end.

(** Nothing has been shown when a call into a library has raised. *)
Definition nothing_shown_on_failure (s : state) : Prop :=
  ∀ c msg, c ∈ calls s → failure c = Some msg → outputs s = [].

(** The order in which the cells call into the libraries. *)
Definition call_order (grand : bool) : list string :=
  ["MPRester"; "Composition"; "Composition"; "get_entries_in_chemsys";
   "PhaseDiagram"] ++
  (if grand
   then ["Element"; "get_transition_chempots"; "GrandPotentialPhaseDiagram"]
   else []) ++
  ["InterfacialReactivity"; "plot"; "get_kinks"].

(** ** Reasoning about statements *)

Definition wp {A} (m : M A) (s : state) (Q : result A → state → Prop) : Prop :=
  Q (m s).1 (m s).2.

Lemma wp_ret {A} (a : A) s Q : Q (Ok a) s → wp (ret a) s Q.
Proof. done. Qed.

Lemma wp_raise {A} e s (Q : result A → state → Prop) :
  Q (Raise e) s → wp (raise e) s Q.
Proof. done. Qed.

Lemma wp_bind {A B} (m : M A) (k : A → M B) s Q :
  wp m s (λ r s', match r with
                  | Ok a => wp (k a) s' Q
                  | Raise e => Q (Raise e) s'
                  end) →
  wp (bind m k) s Q.
Proof. unfold wp, bind. by destruct (m s) as [[a|e] s']. Qed.

Lemma wp_assign x v s Q :
  Q (Ok tt) (State (<[x := v]> (vars s)) (calls s) (outputs s) (files s)
               (events s ++ [Bound x v])) →
  wp (assign x v) s Q.
Proof. done. Qed.

Lemma wp_name x s Q r :
  vars s !! x = r →
  match r with
  | Some v => Q (Ok v) s
  | None => Q (Raise (NameError x)) s
  end →
  wp (name x) s Q.
Proof. intros <-. unfold wp, name. by destruct (vars s !! x). Qed.

Lemma wp_invoke {A} c (r : reply A) s Q :
  (∀ a, r = Returned a →
        Q (Ok a) (State (vars s) (calls s ++ [c]) (outputs s)
                    (on_disk ext (callee c) (files s)) (events s))) →
  (∀ msg, r = Raised msg →
        Q (Raise (ExternalError msg))
          (State (vars s) (calls s ++ [c]) (outputs s)
             (on_disk ext (callee c) (files s)) (events s))) →
  wp (invoke c r) s Q.
Proof. unfold wp, invoke. destruct r; eauto. Qed.

Lemma wp_unbind x s Q r :
  vars s !! x = r →
  match r with
  | Some _ =>
      Q (Ok tt) (State (delete x (vars s)) (calls s) (outputs s) (files s)
                   (events s ++ [Unbound x]))
  | None => Q (Raise (NameError x)) s
  end →
  wp (unbind x) s Q.
Proof. intros <-. unfold wp, unbind. by destruct (vars s !! x). Qed.

Lemma wp_write_file path text s Q :
  Q (Ok tt) (State (vars s) (calls s) (outputs s)
               (<[path := text]> (files s)) (events s)) →
  wp (write_file path text) s Q.
Proof. done. Qed.

Lemma wp_emit o s Q :
  Q (Ok tt) (State (vars s) (calls s) (outputs s ++ [o]) (files s)
               (events s)) →
  wp (emit o) s Q.
Proof. done. Qed.

Lemma wp_exec_nil s Q : Q (Ok tt) s → wp (exec []) s Q.
Proof. done. Qed.

Lemma wp_exec_cons m p s Q :
  wp m s (λ r s', match r with
                  | Ok _ => wp (exec p) s' Q
                  | Raise e => Q (Raise e) s'
                  end) →
  wp (exec (m :: p)) s Q.
Proof. apply wp_bind. Qed.

Lemma getitem_nonneg {A} (l : list A) i s :
  0 ≤ i →
  getitem l i s = match l !! Z.to_nat i with
                  | Some x => (Ok x, s)
                  | None => (Raise IndexError, s)
                  end.
Proof.
  intros Hi. unfold getitem.
  destruct (Z.ltb_spec i 0) as [|_]; [lia|].
  destruct (l !! Z.to_nat i) as [x|] eqn:Hl.
  - apply lookup_lt_Some in Hl.
    destruct (Z.leb_spec 0 i); [|lia].
    destruct (Z.ltb_spec i (Z.of_nat (length l))); [done|lia].
  - apply lookup_ge_None in Hl.
    destruct (Z.ltb_spec i (Z.of_nat (length l))); [lia|].
    by rewrite andb_false_r.
Qed.

(** The subscript [[0]] succeeds on the non-empty sequences and on no
    other. *)
Lemma first_item_in_bounds {A} (l : list A) s :
  (∃ x, getitem l 0 s = (Ok x, s)) ↔ l ≠ [].
Proof.
  rewrite getitem_nonneg by done. destruct l as [|x l]; cbn.
  - split; [by intros [x ?]|done].
  - split; [done|eauto].
Qed.

Lemma wp_getitem {A} (l : list A) i s Q :
  0 ≤ i →
  match l !! Z.to_nat i with
  | Some x => Q (Ok x) s
  | None => Q (Raise IndexError) s
  end →
  wp (getitem l i) s Q.
Proof.
  intros Hi HQ. unfold wp. rewrite getitem_nonneg by done.
  by destruct (l !! Z.to_nat i).
Qed.

Lemma kink_row_unfold i ratio energy rxn :
  kink_row (i, ratio, energy, rxn) =
  VODict [ ("mixing ratio", VFloat (round ext ratio 4));
           ("reaction energy (eV/atom)", VFloat (round ext energy 4));
           ("reaction", VReaction rxn) ].
Proof. reflexivity. Qed.

Lemma od_get_cons k' v d k :
  od_get ((k', v) :: d) k = if String.eqb k' k then ret v else od_get d k.
Proof. reflexivity. Qed.

Lemma list_set_NoDup l : NoDup (list_set l).
Proof. unfold list_set. apply NoDup_elements. Qed.

Lemma elem_of_list_set l x : x ∈ list_set l ↔ x ∈ l.
Proof. unfold list_set. by rewrite elem_of_elements, elem_of_list_to_set. Qed.

Lemma tabulates_kink_row k : tabulates k (kink_row k).
Proof. by destruct k as [[[i ratio] energy] rxn]. Qed.

Lemma tabulates_rows ks : Forall2 tabulates ks (kink_row <$> ks).
Proof. induction ks; constructor; auto using tabulates_kink_row. Qed.

(** Symbolic execution of the cells. *)

Ltac wp_simpl :=
  cbv beta iota delta
      [vars calls outputs files events truth as_str as_strs as_float as_chempots
       as_MPRester as_Composition as_entries as_PhaseDiagram
       as_GrandPotentialPhaseDiagram as_InterfacialReactivity as_list as_odict
       py_add fst snd].

Ltac find_var m x :=
  lazymatch m with
  | <[x := ?v]> _ => constr:(Some v)
  | <[_ := _]> ?m' => find_var m' x
  | delete x _ => constr:(@None value)
  | delete _ ?m' => find_var m' x
  | ∅ => constr:(@None value)
  end.

Ltac solve_lookup :=
  cbv beta iota delta [vars];
  repeat first
    [ apply lookup_insert_eq
    | apply lookup_delete_eq
    | apply lookup_empty
    | rewrite lookup_insert_ne by (apply String.eqb_neq; reflexivity)
    | rewrite lookup_delete_ne by (apply String.eqb_neq; reflexivity) ].

Ltac wp_step :=
  lazymatch goal with
  | |- wp (bind _ _) _ _ => apply wp_bind
  | |- wp (ret _) _ _ => apply wp_ret
  | |- wp (raise _) _ _ => apply wp_raise
  | |- wp (assign _ _) _ _ => apply wp_assign
  | |- wp (name ?x) ?s _ =>
      let m := eval cbv beta iota delta [vars] in (vars s) in
      let r := find_var m x in
      apply (wp_name x s _ r); [solve_lookup|]
  | |- wp (emit _) _ _ => apply wp_emit
  | |- wp (write_file _ _) _ _ => apply wp_write_file
  | |- wp (unbind ?x) ?s _ =>
      let m := eval cbv beta iota delta [vars] in (vars s) in
      let r := find_var m x in
      apply (wp_unbind x s _ r); [solve_lookup|]
  | |- wp (invoke _ _) _ _ =>
      let H := fresh "Hcall" in apply wp_invoke; intros ? H
  | |- wp (exec []) _ _ => apply wp_exec_nil
  | |- wp (exec (_ :: _)) _ _ => apply wp_exec_cons
  | |- wp (when _ _) _ _ => unfold when
  | |- wp (if_else _ _ _) _ _ => unfold if_else
  | |- wp (getitem _ _) _ _ =>
      let H := fresh "Hget" in
      apply wp_getitem; [done|];
      change (Z.to_nat 0) with 0%nat; change (Z.to_nat 2) with 2%nat;
      rewrite ?list_lookup_fmap;
      lazymatch goal with
      | |- context [?l !! ?n] => destruct (l !! n) eqn:H
      end;
      cbn [fmap option_fmap option_map]
  | |- wp (od_get _ _) _ _ =>
      repeat (rewrite od_get_cons;
              lazymatch goal with
              | |- context [String.eqb ?a ?b] =>
                  let r := eval vm_compute in (String.eqb a b) in
                  change (String.eqb a b) with r
              end; cbv beta iota)
  | |- context [kink_row ?p] =>
      is_var p; destruct p as [[[? ?] ?] ?]; rewrite kink_row_unfold
  end; wp_simpl.

Ltac wp_run :=
  unfold run, notebook, cell1, cell2, cell3, cell4, cell5, cell6, initial;
  cbn [app]; repeat wp_step.

(** Membership in an explicit list, case by case. *)
Ltac in_list H :=
  repeat (apply elem_of_cons in H as [H|H]; [try discriminate H|]);
  try (apply elem_of_nil in H; contradiction).

(** Rewrites the lookups of names in the final state of a run. *)
Ltac final_lookups :=
  repeat match goal with
         | |- context [?m !! ?x] =>
             lazymatch m with
             | <[_ := _]> _ => idtac
             | delete _ _ => idtac
             | ∅ => idtac
             end;
             let r := find_var m x in
             replace (m !! x) with r by (symmetry; solve_lookup)
         end.

Lemma wp_run_eq {A} (m : M A) s Q : wp m s Q → Q (m s).1 (m s).2.
Proof. done. Qed.

(** ** The claims *)

(** C9.  Whatever the flag [grand] and whatever the libraries answer, no
    read of a name fails: the run never ends in a NameError.  With
    [grand] false, [open_el] and [relative_mu] are never bound. *)
Theorem names_defined_before_use (grand : bool) (fs : gmap string string) :
  is_NameError (run grand fs).1 = false ∧
  vars (run false fs).2 !! "open_el" = None ∧
  vars (run false fs).2 !! "relative_mu" = None.
Proof.
  assert (∀ g, wp (exec (notebook g)) (initial fs)
            (λ r s, is_NameError r = false ∧
                    (g = false → vars s !! "open_el" = None ∧
                                 vars s !! "relative_mu" = None))) as H.
  { intros [|]; wp_run; (split; [done|]); try done;
      intros _; split; solve_lookup. }
  split; [apply (H grand)|]. by apply (H false).
Qed.


(** The dynamic checks of the embedding never fire: every value is of
    the type its use expects, and "reaction" is a key of every row. *)
Lemma casts_never_fail (grand : bool) (fs : gmap string string) :
  is_cast_error (run grand fs).1 = false.
Proof.
  apply (wp_run_eq (exec (notebook grand)) (initial fs)
           (λ r _, is_cast_error r = false)).
  destruct grand; wp_run; done.
Qed.

(** C1.  The list handed to [get_entries_in_chemsys] has no repeated
    symbol, and its members are exactly the symbols of the elements of
    [comp1] (built from LiCoO2) or of [comp2] (built from Li3PS4),
    together with the open element when [grand] is true: [open_el] is
    then bound to a string, and that string is in the list. *)
Theorem elements_of_entry_retrieval (grand : bool) (fs : gmap string string)
    (mpr : MPRester ext) (els : list string) :
  CGetEntries mpr els ∈ calls (run grand fs).2 →
  ∃ c1 c2 open,
    new_Composition ext "LiCoO2" = Returned c1 ∧
    new_Composition ext "Li3PS4" = Returned c2 ∧
    (if grand
     then ∃ o, vars (run grand fs).2 !! "open_el" = Some (VStr o) ∧
               open = [o]
     else open = []) ∧
    NoDup els ∧
    ∀ x, x ∈ els ↔ x ∈ symbols c1 ∨ x ∈ symbols c2 ∨ x ∈ open.
Proof.
  revert mpr els. apply (wp_run_eq (exec (notebook grand)) (initial fs)
    (λ _ s, ∀ mpr els, CGetEntries mpr els ∈ calls s → ∃ c1 c2 open,
       _ ∧ _ ∧
       (if grand then ∃ o, vars s !! "open_el" = _ ∧ open = [o] else _) ∧
       _ ∧ _)).
  destruct grand; wp_run; intros mpr els Hin; in_list Hin; simplify_eq.
  all: eexists _, _, _; final_lookups.
  all: split_and!;
    [ done | done
    | first [ by eexists | reflexivity ]
    | apply list_set_NoDup
    | intros x; unfold symbols;
      rewrite elem_of_list_set, ?fmap_app, ?elem_of_app, ?elem_of_nil; tauto ].
Qed.


Lemma lookup_0_cons {A} (l : list A) x : l !! 0%nat = Some x → ∃ l', l = x :: l'.
Proof. destruct l; intros; simplify_eq/=; eauto. Qed.

(** C2.  With [grand] true, the grand-potential phase diagram is built
    from the very entries the phase diagram [pd] was built from, and its
    chemical potentials fix one element only: [open_el], at
    [relative_mu + mu], where [mu] is the first transition chemical
    potential that [pd] gives for [open_el]. *)
Theorem grand_potential_diagram_inputs (fs : gmap string string)
    (es : list (Entry ext)) (chempots : gmap string (float ext)) :
  CGrandPotentialPhaseDiagram es chempots ∈ calls (run true fs).2 →
  ∃ p o r el mu rest,
    CPhaseDiagram es ∈ calls (run true fs).2 ∧
    new_PhaseDiagram ext es = Returned p ∧
    vars (run true fs).2 !! "pd" = Some (VPhaseDiagram p) ∧
    vars (run true fs).2 !! "open_el" = Some (VStr o) ∧
    vars (run true fs).2 !! "relative_mu" = Some (VInt r) ∧
    new_Element ext o = Returned el ∧
    get_transition_chempots ext p el = Returned (mu :: rest) ∧
    chempots = {[ o := float_add ext (float_of_int ext r) mu ]} ∧
    dom chempots = {[ o ]}.
Proof.
  revert es chempots. apply (wp_run_eq (exec (notebook true)) (initial fs)
    (λ _ s, ∀ es chempots, CGrandPotentialPhaseDiagram es chempots ∈ calls s →
       ∃ p o r el mu rest, CPhaseDiagram es ∈ calls s ∧ _ ∧
         vars s !! "pd" = _ ∧ vars s !! "open_el" = _ ∧
         vars s !! "relative_mu" = _ ∧ _)).
  wp_run; intros es chempots Hin; in_list Hin; simplify_eq.
  all: match goal with
       | H : _ !! 0%nat = Some _ |- _ => apply lookup_0_cons in H as [rest ->]
       end.
  all: eexists _, _, _, _, _, _; final_lookups.
  all: split_and!; try done; set_solver.
Qed.


(** C4.  The kinks that [get_kinks] returns are tabulated one row each, in
    the same order.  A row has the three fields "mixing ratio", "reaction
    energy (eV/atom)" and "reaction", in this order; the first two hold
    the kink's ratio and energy passed through [round(_, 4)], the third
    the kink's reaction as it is.  The list of rows is bound to
    [critical_rxns], and the table shown is built from it. *)
Theorem kinks_tabulated (grand : bool) (fs : gmap string string)
    (i : InterfacialReactivity ext)
    (ks : list (Z * float ext * float ext * Reaction ext)) :
  CGetKinks i ∈ calls (run grand fs).2 →
  get_kinks ext i = Returned ks →
  ∃ rows,
    vars (run grand fs).2 !! "critical_rxns" = Some (VList rows) ∧
    Forall2 tabulates ks rows ∧
    ExecuteResult (VDataFrame rows) ∈ outputs (run grand fs).2.
Proof.
  revert i ks. apply (wp_run_eq (exec (notebook grand)) (initial fs)
    (λ _ s, ∀ i ks, CGetKinks i ∈ calls s → _ → ∃ rows,
       vars s !! "critical_rxns" = _ ∧ _ ∧ _ ∈ outputs s)).
  destruct grand; wp_run; intros i ks Hin Hks; in_list Hin; simplify_eq.
  all: try (exfalso; congruence).
  all: match goal with
       | H : get_kinks ext _ = Returned ?a |- _ =>
           assert_fails (constr_eq a ks); assert (ks = a) as -> by congruence
       end.
  all: eexists; final_lookups.
  all: split_and!; [done|apply tabulates_rows|set_solver].
Qed.


(** C7, as the notebook has it.  The disk is what outlives the kernel.
    No statement of the notebook writes to it: after a run it is the disk
    from before, changed by nothing but what the libraries themselves
    write during the calls made.  A run that completes shows, in this
    order, the figure bound to [plt], the table built from
    [critical_rxns], the printed reaction [rxn], which is the reaction of
    the third row, and the printed type of [rxn]; a run that stops early
    shows only outputs of these kinds. *)
Theorem outputs_of_a_run (grand : bool) (fs : gmap string string) :
  files (run grand fs).2 = disk_after fs (calls (run grand fs).2) ∧
  (∀ o, o ∈ outputs (run grand fs).2 →
     match o with
     | DisplayData f => vars (run grand fs).2 !! "plt" = Some (VFigure f)
     | ExecuteResult v =>
         ∃ rows, v = VDataFrame rows ∧
                 vars (run grand fs).2 !! "critical_rxns" = Some (VList rows)
     | Stream v =>
         ∃ r, vars (run grand fs).2 !! "rxn" = Some (VReaction r) ∧
              (v = VReaction r ∨ v = type_of (VReaction r))
     end) ∧
  ((run grand fs).1 = Ok tt →
   ∃ f rows r,
     vars (run grand fs).2 !! "plt" = Some (VFigure f) ∧
     vars (run grand fs).2 !! "critical_rxns" = Some (VList rows) ∧
     vars (run grand fs).2 !! "rxn" = Some (VReaction r) ∧
     (∃ row, rows !! 2%nat = Some (VODict row) ∧
             ("reaction", VReaction r) ∈ row) ∧
     outputs (run grand fs).2 =
       [ DisplayData f; ExecuteResult (VDataFrame rows);
         Stream (VReaction r);
         Stream (VType "pymatgen.analysis.reaction_calculator.Reaction") ]).
Proof.
  apply (wp_run_eq (exec (notebook grand)) (initial fs)
    (λ r s,
       files s = disk_after fs (calls s) ∧
       (∀ o, o ∈ outputs s →
          match o with
          | DisplayData f => vars s !! "plt" = _
          | ExecuteResult v => ∃ rows, _ ∧ vars s !! "critical_rxns" = _
          | Stream v => ∃ r, vars s !! "rxn" = _ ∧ _
          end) ∧
       (r = Ok tt → ∃ f rows r,
          vars s !! "plt" = _ ∧ vars s !! "critical_rxns" = _ ∧
          vars s !! "rxn" = _ ∧ (∃ row, rows !! 2%nat = _ ∧ _) ∧
          outputs s = _))).
  destruct grand; wp_run.
  all: split; [reflexivity|]; split.
  all: try (intros o Hin; in_list Hin; subst o; final_lookups; by eauto).
  all: try discriminate.
  all: intros _; eexists _, _, _; final_lookups; split_and!; try done.
  all: eexists; rewrite list_lookup_fmap;
    match goal with H : _ !! 2%nat = Some _ |- _ => rewrite H end;
    cbn [fmap option_fmap option_map]; rewrite kink_row_unfold;
    split; [done|set_solver].
Qed.

(** C8, as the notebook has it.  When a call into a library raises, the
    run ends with that very exception, and the call is the last thing the
    notebook did: nothing catches it and nothing runs after it.  No table
    is built and nothing is printed.  If the call is [get_kinks], the
    figure of the cell before has been shown and stays; if it is any
    other call, nothing has been shown. *)
Theorem library_errors_propagate (grand : bool) (fs : gmap string string)
    (c : call) (msg : string) :
  c ∈ calls (run grand fs).2 →
  failure c = Some msg →
  (run grand fs).1 = Raise (ExternalError msg) ∧
  last (calls (run grand fs).2) = Some c ∧
  match c with
  | CGetKinks i =>
      ∃ f, plot ext i = Returned f ∧
           outputs (run grand fs).2 = [DisplayData f]
  | _ => outputs (run grand fs).2 = []
  end ∧
  vars (run grand fs).2 !! "critical_rxns" = None ∧
  vars (run grand fs).2 !! "rxn" = None.
Proof.
  revert c msg. apply (wp_run_eq (exec (notebook grand)) (initial fs)
    (λ r s, ∀ c msg, c ∈ calls s → failure c = Some msg →
       r = Raise (ExternalError msg) ∧ last (calls s) = Some c ∧
       match c with
       | CGetKinks i => ∃ f, plot ext i = Returned f ∧ outputs s = [DisplayData f]
       | _ => outputs s = []
       end ∧
       vars s !! "critical_rxns" = None ∧ vars s !! "rxn" = None)).
  destruct grand; wp_run.
  all: intros c m Hin Hfail; in_list Hin; subst c.
  all: cbn [failure] in Hfail.
  all: match type of Hfail with
       | reply_error ?r = _ =>
           match goal with H : r = _ |- _ => rewrite H in Hfail end
       end.
  all: cbn [reply_error] in Hfail; simplify_eq.
  all: final_lookups; split_and!; try done.
  all: eexists; split; [eassumption|reflexivity].
Qed.


(** ** The record of bindings *)

Lemma apply_event_other m e x :
  event_name e ≠ x → apply_event m e !! x = m !! x.
Proof.
  destruct e as [y v|y]; cbn; intros Hy.
  - by apply lookup_insert_ne.
  - by apply lookup_delete_ne.
Qed.

Lemma namespaces_frame m evs x :
  Forall (λ e, event_name e ≠ x) evs →
  Forall (λ m', m' !! x = m !! x) (namespaces m evs).
Proof.
  intros H. revert m. induction H as [|e evs He _ IH]; intros m; cbn.
  { constructor. }
  constructor; [by apply apply_event_other|].
  rewrite <-(apply_event_other m e x He). apply IH.
Qed.

Lemma untouched_Forall evs x :
  forallb (λ e, negb (String.eqb (event_name e) x)) evs = true →
  Forall (λ e, event_name e ≠ x) evs.
Proof.
  rewrite forallb_forall, Forall_forall. intros H e He.
  apply list_elem_of_In, H, negb_true_iff in He. by apply String.eqb_neq.
Qed.

(** In a settled record, a held value stays under its name. *)
Lemma settled_unchanged evs :
  settled evs = true →
  ∀ m,
    (∀ x v, m !! x = Some v → held v = true →
            Forall (λ e, event_name e ≠ x) evs) →
    ∀ x v i j mi mj,
      held v = true → (i ≤ j)%nat →
      namespaces m evs !! i = Some mi → namespaces m evs !! j = Some mj →
      mi !! x = Some v → mj !! x = Some v.
Proof.
  induction evs as [|e evs IH]; intros Hs m Hm x v i j mi mj Hv Hij Hi Hj Hx.
  { done. }
  cbn [settled] in Hs. apply andb_true_iff in Hs as [He Hs].
  assert (∀ y w, apply_event m e !! y = Some w → held w = true →
                 Forall (λ e', event_name e' ≠ y) evs) as Hm'.
  { intros y w Hy Hw. destruct (decide (event_name e = y)) as [<-|Hne].
    - destruct e as [z u|z]; cbn in *.
      + rewrite lookup_insert_eq in Hy. simplify_eq. rewrite Hw in He.
        by apply untouched_Forall.
      + by rewrite lookup_delete_eq in Hy.
    - rewrite apply_event_other in Hy by done.
      by apply (Forall_inv_tail (Hm y w Hy Hw)). }
  cbn [namespaces] in Hi, Hj.
  destruct i as [|i], j as [|j]; simplify_eq/=; [done| |lia|].
  - pose proof (namespaces_frame (apply_event m e) _ _ (Hm' x v Hx Hv)) as Hf.
    rewrite Forall_lookup in Hf. by rewrite (Hf j mj Hj).
  - eapply (IH Hs _ Hm' x v i j); eauto. lia.
Qed.

(** C6.  The record of bindings replays to the final namespace, and along
    the namespaces it leads through, taken after every single binding, a
    name that is bound to a composition, to entries, to a phase diagram,
    to a reaction or to the rows of reactions keeps that very value:
    nothing rebinds it, changes it in place or unbinds it. *)
Theorem held_values_unchanged (grand : bool) (fs : gmap string string) :
  foldl apply_event ∅ (events (run grand fs).2) = vars (run grand fs).2 ∧
  ∀ x v i j mi mj,
    held v = true → (i ≤ j)%nat →
    history (run grand fs).2 !! i = Some mi →
    history (run grand fs).2 !! j = Some mj →
    mi !! x = Some v → mj !! x = Some v.
Proof.
  assert (foldl apply_event ∅ (events (run grand fs).2)
            = vars (run grand fs).2 ∧
          settled (events (run grand fs).2) = true) as [Hvars Hsettled].
  { apply (wp_run_eq (exec (notebook grand)) (initial fs)
      (λ _ s, foldl apply_event ∅ (events s) = vars s ∧
              settled (events s) = true)).
    destruct grand; wp_run; split; reflexivity. }
  split; [done|]. unfold history.
  apply (settled_unchanged _ Hsettled). intros x v Hx.
  by rewrite lookup_empty in Hx.
Qed.

(** ** Further properties of the run *)

(** X1.  Where the open-system branch takes item 0 of the transition
    chemical potentials: an empty answer stops the run there with an
    IndexError, before anything is shown and with [mu] unbound; any other
    answer binds [mu] to its first item. *)
Theorem first_transition_chempot (fs : gmap string string)
    (p : PhaseDiagram ext) (el : Element ext) (mus : list (float ext)) :
  CTransitionChempots p el ∈ calls (run true fs).2 →
  get_transition_chempots ext p el = Returned mus →
  match mus with
  | [] =>
      (run true fs).1 = Raise IndexError ∧
      vars (run true fs).2 !! "mu" = None ∧
      last (calls (run true fs).2) = Some (CTransitionChempots p el) ∧
      outputs (run true fs).2 = []
  | mu :: _ => vars (run true fs).2 !! "mu" = Some (VFloat mu)
  end.
Proof.
  revert p el mus. apply (wp_run_eq (exec (notebook true)) (initial fs)
    (λ r s, ∀ p el mus, CTransitionChempots p el ∈ calls s → _ →
       match mus with
       | [] => r = _ ∧ vars s !! "mu" = None ∧ last (calls s) = _ ∧
               outputs s = []
       | mu :: _ => vars s !! "mu" = _
       end)).
  wp_run; intros p el mus Hin Hmus; in_list Hin; simplify_eq.
  all: try (exfalso; congruence).
  all: match goal with
       | H : get_transition_chempots ext _ _ = Returned ?a |- _ =>
           assert_fails (constr_eq a mus); assert (mus = a) as -> by congruence
       end.
  all: match goal with
       | H : _ !! 0%nat = Some _ |- _ => apply lookup_0_cons in H as [? ->]
       | H : ?l !! 0%nat = None |- _ => destruct l; [clear H|discriminate H]
       end.
  all: final_lookups; by split_and?.
Qed.

(** X2.  Where the last cell takes row 2 of the table.  With fewer than
    three kinks the run stops there with an IndexError, after the figure
    and the table have been shown and with [rxn] unbound; with three or
    more it completes and [rxn] is the reaction of the third kink. *)
Theorem third_kink (grand : bool) (fs : gmap string string)
    (i : InterfacialReactivity ext)
    (ks : list (Z * float ext * float ext * Reaction ext)) :
  CGetKinks i ∈ calls (run grand fs).2 →
  get_kinks ext i = Returned ks →
  match ks !! 2%nat with
  | Some k =>
      (run grand fs).1 = Ok tt ∧
      vars (run grand fs).2 !! "rxn" = Some (VReaction k.2)
  | None =>
      (run grand fs).1 = Raise IndexError ∧
      vars (run grand fs).2 !! "rxn" = None ∧
      ∃ f, plot ext i = Returned f ∧
           outputs (run grand fs).2 =
             [DisplayData f; ExecuteResult (VDataFrame (kink_row <$> ks))]
  end.
Proof.
  revert i ks. apply (wp_run_eq (exec (notebook grand)) (initial fs)
    (λ r s, ∀ i ks, CGetKinks i ∈ calls s → _ →
       match ks !! 2%nat with
       | Some k => r = _ ∧ vars s !! "rxn" = _
       | None => r = _ ∧ vars s !! "rxn" = None ∧
                 ∃ f, _ ∧ outputs s = _
       end)).
  destruct grand; wp_run; intros i ks Hin Hks; in_list Hin; simplify_eq.
  all: try (exfalso; congruence).
  all: match goal with
       | H : get_kinks ext _ = Returned ?a |- _ =>
           assert_fails (constr_eq a ks); assert (ks = a) as -> by congruence
       end.
  all: match goal with H : _ !! 2%nat = _ |- _ => rewrite H end.
  all: final_lookups; split_and?; eauto.
Qed.

(** X3.  A run completes exactly when [get_kinks] is reached and returns
    at least three kinks: the subscript of the last cell is the only
    place left where it can still stop. *)
Theorem completes_iff_three_kinks (grand : bool) (fs : gmap string string) :
  (run grand fs).1 = Ok tt ↔
  ∃ i ks, CGetKinks i ∈ calls (run grand fs).2 ∧
          get_kinks ext i = Returned ks ∧
          (3 ≤ length ks)%nat.
Proof.
  apply (wp_run_eq (exec (notebook grand)) (initial fs)
    (λ r s, r = Ok tt ↔
            ∃ i ks, CGetKinks i ∈ calls s ∧ _ ∧ (3 ≤ length ks)%nat)).
  destruct grand; wp_run.
  all: split;
    [ try discriminate
    | intros (i & ks & Hin & Hks & Hlen); in_list Hin; simplify_eq;
      try (exfalso; congruence) ].
  all: try match goal with
       | H : get_kinks ext _ = Returned ?a, Hks : get_kinks ext _ = Returned ?b,
         Hget : ?a !! 2%nat = None |- _ =>
           assert (b = a) as -> by congruence;
           apply lookup_ge_None in Hget; lia
       end.
  all: try done.
  all: intros _; eexists _, _; split_and!;
    [ repeat first [apply list_elem_of_here | apply list_elem_of_further]
    | done | ].
  all: match goal with
       | H : _ !! 2%nat = Some _ |- _ => apply lookup_lt_Some in H; lia
       end.
Qed.

(** X4.  The libraries are called in one fixed order, each at most as
    often as the order lists it; a run that stops early has made an
    initial part of the calls, a run that completes has made them all.
    With [grand] false, [Element], [get_transition_chempots] and
    [GrandPotentialPhaseDiagram] are not called at all. *)
Theorem calls_in_order (grand : bool) (fs : gmap string string) :
  callee <$> calls (run grand fs).2 `prefix_of` call_order grand ∧
  ((run grand fs).1 = Ok tt →
   callee <$> calls (run grand fs).2 = call_order grand).
Proof.
  apply (wp_run_eq (exec (notebook grand)) (initial fs)
    (λ r s, callee <$> calls s `prefix_of` call_order grand ∧
            (r = Ok tt → callee <$> calls s = call_order grand))).
  destruct grand; wp_run.
  all: split; [by eexists|done].
Qed.

Ltac in_calls :=
  repeat first [ apply list_elem_of_here | apply list_elem_of_further ].

(** Two answers of one call are one answer. *)
Ltac same_reply :=
  repeat match goal with
         | H1 : ?r = Returned ?a, H2 : ?r = Returned ?b |- _ =>
             assert_fails (constr_eq a b);
             assert (b = a) as -> by congruence; clear H2
         end.

(** X5.  The phase diagram is built from the entries that the REST query
    returned, for the client made in the first cell, and these are the
    entries that [entries] stays bound to. *)
Theorem diagram_from_retrieved_entries (grand : bool)
    (fs : gmap string string) (es : list (Entry ext)) :
  CPhaseDiagram es ∈ calls (run grand fs).2 →
  ∃ mpr els,
    new_MPRester ext = Returned mpr ∧
    CGetEntries mpr els ∈ calls (run grand fs).2 ∧
    get_entries_in_chemsys ext mpr els = Returned es ∧
    vars (run grand fs).2 !! "entries" = Some (VEntries es).
Proof.
  revert es. apply (wp_run_eq (exec (notebook grand)) (initial fs)
    (λ _ s, ∀ es, CPhaseDiagram es ∈ calls s → ∃ mpr els,
       _ ∧ CGetEntries mpr els ∈ calls s ∧ _ ∧ vars s !! "entries" = _)).
  destruct grand; wp_run; intros es Hin; in_list Hin; simplify_eq.
  all: eexists _, _; final_lookups.
  all: split_and!; [eassumption|in_calls|eassumption|done].
Qed.

(** X6.  The figure and the table present one and the same analysis: the
    object that [plot] and [get_kinks] are called on is the one the
    single [InterfacialReactivity] call returned and [interface] is bound
    to, and [get_kinks] is called on it only after [plot] has returned. *)
Theorem presentation_of_the_analysis (grand : bool) (fs : gmap string string)
    (i : InterfacialReactivity ext) :
  CPlot i ∈ calls (run grand fs).2 ∨ CGetKinks i ∈ calls (run grand fs).2 →
  vars (run grand fs).2 !! "interface" = Some (VInterfacialReactivity i) ∧
  CPlot i ∈ calls (run grand fs).2 ∧
  (CGetKinks i ∈ calls (run grand fs).2 → ∃ f, plot ext i = Returned f) ∧
  ∃ c1 c2 arg mix non_grand,
    CInterfacialReactivity c1 c2 arg true mix non_grand
      ∈ calls (run grand fs).2 ∧
    new_InterfacialReactivity ext c1 c2 arg true mix non_grand = Returned i.
Proof.
  revert i. apply (wp_run_eq (exec (notebook grand)) (initial fs)
    (λ _ s, ∀ i, CPlot i ∈ calls s ∨ CGetKinks i ∈ calls s →
       vars s !! "interface" = _ ∧ CPlot i ∈ calls s ∧
       (CGetKinks i ∈ calls s → _) ∧
       ∃ c1 c2 arg mix non_grand, _ ∈ calls s ∧ _)).
  destruct grand; wp_run; intros i [Hin|Hin]; in_list Hin; simplify_eq.
  all: final_lookups; split_and!; [done|in_calls| |].
  all: try (intros Hk; in_list Hk; simplify_eq; by eauto).
  all: eexists _, _, _, _, _; split; [in_calls|eassumption].
Qed.

(** X8.  What the open element adds to the REST query.  The element list
    of an open-system run is that of the closed-system run when "Co" is
    already among the reactants' elements, and that list with "Co" added
    when it is not; in both cases up to the order of the list. *)
Theorem open_element_in_query (fs fs' : gmap string string)
    (mpr mpr' : MPRester ext) (els els' : list string) :
  CGetEntries mpr els ∈ calls (run true fs).2 →
  CGetEntries mpr' els' ∈ calls (run false fs').2 →
  els ≡ₚ if bool_decide ("Co" ∈ els') then els' else "Co" :: els'.
Proof.
  intros H H'.
  assert (∀ g fs0 m l, CGetEntries m l ∈ calls (run g fs0).2 →
            ∃ c1 c2, new_Composition ext "LiCoO2" = Returned c1 ∧
                     new_Composition ext "Li3PS4" = Returned c2 ∧
                     l = list_set ((symbols c1 ++ symbols c2) ++
                                   if g then ["Co"] else [])) as Hq.
  { intros g fs0. apply (wp_run_eq (exec (notebook g)) (initial fs0)
      (λ _ s, ∀ m l, CGetEntries m l ∈ calls s → ∃ c1 c2, _ ∧ _ ∧ _)).
    destruct g; wp_run; intros m l Hin; in_list Hin; simplify_eq.
    all: eexists _, _; split_and!; [eassumption|eassumption|].
    all: unfold symbols; by rewrite ?fmap_app, ?app_nil_r. }
  destruct (Hq _ _ _ _ H) as (c1 & c2 & Hc1 & Hc2 & ->).
  destruct (Hq _ _ _ _ H') as (c1' & c2' & Hc1' & Hc2' & ->).
  assert (c1' = c1) as -> by congruence.
  assert (c2' = c2) as -> by congruence.
  rewrite app_nil_r. set (l := symbols c1 ++ symbols c2).
  case_bool_decide as HCo; rewrite elem_of_list_set in HCo.
  - apply NoDup_Permutation; [apply list_set_NoDup..|].
    intros x. rewrite !elem_of_list_set, elem_of_app, list_elem_of_singleton.
    intuition (subst; auto).
  - apply NoDup_Permutation.
    + apply list_set_NoDup.
    + apply NoDup_cons. split; [by rewrite elem_of_list_set|].
      apply list_set_NoDup.
    + intros x.
      rewrite elem_of_cons, !elem_of_list_set, elem_of_app,
        list_elem_of_singleton.
      tauto.
Qed.

(** X10.  What is shown tells how far the run got: the figure is shown
    exactly when [plot] has returned it, and a table is shown exactly when
    [get_kinks] has returned, the table being the tabulation of the kinks
    returned; both also in a run that the last cell then stops. *)
Theorem shown_iff_returned (grand : bool) (fs : gmap string string) :
  (∀ f, DisplayData f ∈ outputs (run grand fs).2 ↔
        ∃ i, CPlot i ∈ calls (run grand fs).2 ∧ plot ext i = Returned f) ∧
  (∀ v, ExecuteResult v ∈ outputs (run grand fs).2 ↔
        ∃ i ks, CGetKinks i ∈ calls (run grand fs).2 ∧
                get_kinks ext i = Returned ks ∧
                v = VDataFrame (kink_row <$> ks)).
Proof.
  apply (wp_run_eq (exec (notebook grand)) (initial fs)
    (λ _ s,
       (∀ f, DisplayData f ∈ outputs s ↔ ∃ i, CPlot i ∈ calls s ∧ _) ∧
       (∀ v, ExecuteResult v ∈ outputs s ↔
             ∃ i ks, CGetKinks i ∈ calls s ∧ _ ∧ _))).
  destruct grand; wp_run.
  all: split; [intros fig|intros tbl]; split.
  all: try (intros Hin; in_list Hin; simplify_eq;
            first [ eexists; split; [in_calls|eassumption]
                  | eexists _, _; split_and!; [in_calls|eassumption|done] ]).
  all: try (intros (an & Hin & Hf); in_list Hin; simplify_eq;
            try (exfalso; congruence); same_reply; by in_calls).
  all: intros (an & kinks & Hin & Hks & ->); in_list Hin; simplify_eq;
    try (exfalso; congruence); same_reply; by in_calls.
Qed.

End Notebook.

(** ** The claims, run in the fixture world *)

Section Runs.

Import Fixture.

(** Membership in a list that is known once the run is evaluated. *)
Ltac found :=
  lazymatch goal with
  | |- ?c ∈ ?l => let v := eval vm_compute in l in change (c ∈ v)
  end;
  repeat first [ apply list_elem_of_here | apply list_elem_of_further ].

(** In a world whose compositions list no cobalt, "Co" is in the query
    all the same: it got there through [open_el]. *)
Lemma elements_of_entry_retrieval_witness :
  ∃ c1 c2 open,
    new_Composition masked "LiCoO2" = Returned c1 ∧
    new_Composition masked "Li3PS4" = Returned c2 ∧
    (∃ o, vars masked (run masked true ∅).2 !! "open_el" =
            Some (VStr masked o) ∧
          open = [o]) ∧
    NoDup ["O"; "S"; "Co"; "Li"; "P"] ∧
    ∀ x, x ∈ ["O"; "S"; "Co"; "Li"; "P"] ↔
         x ∈ symbols masked c1 ∨ x ∈ symbols masked c2 ∨ x ∈ open.
Proof.
  apply (elements_of_entry_retrieval masked true ∅ tt
           ["O"; "S"; "Co"; "Li"; "P"]).
  found.
Defined.

Lemma grand_potential_diagram_inputs_witness :
  ∃ p o r el mu rest,
    CPhaseDiagram world database ∈ calls world (run world true ∅).2 ∧
    new_PhaseDiagram world database = Returned p ∧
    vars world (run world true ∅).2 !! "pd" = Some (VPhaseDiagram world p) ∧
    vars world (run world true ∅).2 !! "open_el" = Some (VStr world o) ∧
    vars world (run world true ∅).2 !! "relative_mu" = Some (VInt world r) ∧
    new_Element world o = Returned el ∧
    get_transition_chempots world p el = Returned (mu :: rest) ∧
    ({[ "Co" := -8092000 ]} : gmap string Z) =
      {[ o := float_add world (float_of_int world r) mu ]} ∧
    dom ({[ "Co" := -8092000 ]} : gmap string Z) = {[ o ]}.
Proof.
  apply (grand_potential_diagram_inputs world ∅ database {[ "Co" := -8092000 ]}).
  found.
Defined.


Lemma kinks_tabulated_witness :
  ∃ rows,
    vars world (run world true ∅).2 !! "critical_rxns" = Some (VList world rows) ∧
    Forall2 (tabulates world) kinks rows ∧
    ExecuteResult world (VDataFrame world rows) ∈ outputs world (run world true ∅).2.
Proof.
  eapply (kinks_tabulated world true ∅ _ kinks); [found|reflexivity].
Defined.

(** The phase diagram, from the binding of [pd] to the last binding of
    the run. *)
Lemma held_values_unchanged_witness :
  ∃ mi mj,
    history world (run world true ∅).2 !! 12%nat = Some mi ∧
    history world (run world true ∅).2 !! 19%nat = Some mj ∧
    mi !! "pd" = Some (VPhaseDiagram world database) ∧
    mj !! "pd" = Some (VPhaseDiagram world database).
Proof.
  eexists _, _. split_and!; [reflexivity..|].
  eapply (proj2 (held_values_unchanged world true ∅)
            "pd" (VPhaseDiagram world database) 12%nat 19%nat);
    [reflexivity|lia|reflexivity..].
Defined.

Lemma outputs_of_a_run_witness :
  ∃ f rows r,
    vars world (run world true ∅).2 !! "plt" = Some (VFigure world f) ∧
    vars world (run world true ∅).2 !! "critical_rxns" = Some (VList world rows) ∧
    vars world (run world true ∅).2 !! "rxn" = Some (VReaction world r) ∧
    (∃ row, rows !! 2%nat = Some (VODict world row) ∧
            ("reaction", VReaction world r) ∈ row) ∧
    outputs world (run world true ∅).2 =
      [ DisplayData world f; ExecuteResult world (VDataFrame world rows);
        Stream world (VReaction world r);
        Stream world (VType world "pymatgen.analysis.reaction_calculator.Reaction") ].
Proof.
  apply (outputs_of_a_run world true ∅). reflexivity.
Defined.

(** C7 as the specification words it fails in the fixture world: the
    third kink's reaction is printed, which is neither figure nor table. *)
Lemma outputs_not_only_plot_and_table :
  ¬ only_plot_and_table world (run world true ∅).2.
Proof.
  intros H.
  destruct (H (Stream world (VReaction world
    "0.3333 Li3PS4 + 2.667 LiCoO2 -> 2.667 Co + Li2SO4 + 0.3333 Li2S + 0.3333 Li3PO4")))
    as [[f Hf]|[rows Hrows]]; [found|discriminate..].
Qed.

(** The plotting library of the fixture world writes its font cache, and
    nothing else is on disk after a run. *)
Lemma disk_after_a_run :
  files world (run world true ∅).2 =
  {[ "matplotlib/fontlist.json" := "DejaVu Sans" ]}.
Proof. reflexivity. Qed.

Lemma library_errors_propagate_witness :
  (run mute true ∅).1 = Raise (ExternalError "kinks are not available") ∧
  last (calls mute (run mute true ∅).2) =
    Some (CGetKinks mute
            ([("Li", 1); ("Co", 1); ("O", 2)], [("Li", 3); ("P", 1); ("S", 4)],
             inr (database, {[ "Co" := -8092000 ]}), true, true,
             Some database)) ∧
  (∃ f, plot mute
          ([("Li", 1); ("Co", 1); ("O", 2)], [("Li", 3); ("P", 1); ("S", 4)],
           inr (database, {[ "Co" := -8092000 ]}), true, true,
           Some database) = Returned f ∧
        outputs mute (run mute true ∅).2 = [DisplayData mute f]) ∧
  vars mute (run mute true ∅).2 !! "critical_rxns" = None ∧
  vars mute (run mute true ∅).2 !! "rxn" = None.
Proof.
  apply (library_errors_propagate mute true ∅
           (CGetKinks mute
              ([("Li", 1); ("Co", 1); ("O", 2)], [("Li", 3); ("P", 1); ("S", 4)],
               inr (database, {[ "Co" := -8092000 ]}), true, true,
               Some database)));
    [found|reflexivity].
Defined.

(** C8 as the specification words it fails where [get_kinks] raises: the
    figure of the cell before is on display. *)
Lemma figure_shown_before_failure :
  ¬ nothing_shown_on_failure mute (run mute true ∅).2.
Proof.
  intros H.
  assert (outputs mute (run mute true ∅).2 = []) as Hnone.
  { apply (H (CGetKinks mute
               ([("Li", 1); ("Co", 1); ("O", 2)],
                [("Li", 3); ("P", 1); ("S", 4)],
                inr (database, {[ "Co" := -8092000 ]}), true, true,
                Some database))
             "kinks are not available"); [found|reflexivity]. }
  assert (outputs mute (run mute true ∅).2 = [DisplayData mute tt]) as Hfig
    by reflexivity.
  congruence.
Qed.

(** The further properties at work. *)

Lemma first_transition_chempot_witness :
  (run flat true ∅).1 = Raise IndexError ∧
  vars flat (run flat true ∅).2 !! "mu" = None ∧
  last (calls flat (run flat true ∅).2) =
    Some (CTransitionChempots flat database "Co") ∧
  outputs flat (run flat true ∅).2 = [].
Proof.
  apply (first_transition_chempot flat ∅ database "Co" []); [found|reflexivity].
Defined.

Lemma third_kink_witness :
  (run inert true ∅).1 = Raise IndexError ∧
  vars inert (run inert true ∅).2 !! "rxn" = None.
Proof.
  assert (CGetKinks inert
            ([("Li", 1); ("Co", 1); ("O", 2)], [("Li", 3); ("P", 1); ("S", 4)],
             inr (database, {[ "Co" := -8092000 ]}), true, true, Some database)
          ∈ calls inert (run inert true ∅).2) as Hin by found.
  pose proof (third_kink inert true ∅ _ _ Hin eq_refl) as H.
  exact (conj (proj1 H) (proj1 (proj2 H))).
Defined.

Lemma completes_iff_three_kinks_witness : (run world true ∅).1 = Ok tt.
Proof.
  apply (completes_iff_three_kinks world true ∅).
  eexists _, kinks. split_and!; [found|reflexivity|cbn; lia].
Defined.

Lemma calls_in_order_witness :
  callee world <$> calls world (run world false ∅).2 =
  ["MPRester"; "Composition"; "Composition"; "get_entries_in_chemsys";
   "PhaseDiagram"; "InterfacialReactivity"; "plot"; "get_kinks"].
Proof. apply (calls_in_order world false ∅). reflexivity. Defined.

Lemma diagram_from_retrieved_entries_witness :
  ∃ mpr els,
    new_MPRester world = Returned mpr ∧
    CGetEntries world mpr els ∈ calls world (run world true ∅).2 ∧
    get_entries_in_chemsys world mpr els = Returned database ∧
    vars world (run world true ∅).2 !! "entries" = Some (VEntries world database).
Proof.
  apply (diagram_from_retrieved_entries world true ∅ database). found.
Defined.

Lemma presentation_of_the_analysis_witness :
  ∃ i, vars world (run world false ∅).2 !! "interface" =
         Some (VInterfacialReactivity world i) ∧
       CPlot world i ∈ calls world (run world false ∅).2.
Proof.
  assert (CGetKinks world
            ([("Li", 1); ("Co", 1); ("O", 2)], [("Li", 3); ("P", 1); ("S", 4)],
             inl database, true, false, None)
          ∈ calls world (run world false ∅).2) as Hin by found.
  pose proof (presentation_of_the_analysis world false ∅ _ (or_intror Hin)) as H.
  eexists. exact (conj (proj1 H) (proj1 (proj2 H))).
Defined.

Lemma open_element_in_query_witness :
  ["O"; "S"; "Co"; "Li"; "P"] ≡ₚ
  if bool_decide ("Co" ∈ ["O"; "S"; "Co"; "Li"; "P"])
  then ["O"; "S"; "Co"; "Li"; "P"] else "Co" :: ["O"; "S"; "Co"; "Li"; "P"].
Proof.
  apply (open_element_in_query world ∅ ∅ tt tt); found.
Defined.

(** The figure stays on display when the last cell stops the run. *)
Lemma shown_iff_returned_witness :
  DisplayData inert tt ∈ outputs inert (run inert true ∅).2.
Proof.
  apply (shown_iff_returned inert true ∅).
  eexists. split; [found|reflexivity].
Defined.

End Runs.
